(** * cpp-ftc: [util/demangle.py]

    A shallow embedding of the [demangle] helper, which hands a list of
    mangled C++ symbol names to the external [c++filt] tool and returns the
    lines the tool printed.

    The Python built-ins the function calls ([str.split], [len], the slice
    [l[:-1]], [assert]) are embedded in [Module Py]; the [subprocess] calls
    are embedded over an explicit description of what the operating system
    does with a spawned process; [demangle] itself is written in a small
    state-and-exception monad so that it reads like the source. *)

From Stdlib Require Import String Ascii List ZArith Bool Arith Lia.
Import ListNotations.

Local Open Scope string_scope.
Local Open Scope list_scope.

(* ===================================================================== *)
(** ** Python built-ins used by the source *)
(* ===================================================================== *)

Module Py.

(** The line-feed character, Python's ["\n"]. *)
Definition newline : ascii := "010"%char.

(** [NL] is the one-character string ["\n"]. *)
Definition NL : string := String newline EmptyString.

(** Python [str] values are embedded as [string]; splitting on the line
    feed does not look inside any other character, so the encoding of the
    remaining characters is immaterial here. *)

(** [s.split(sep)] for a separator of exactly one character, the only form
    the source uses.  Scanning left to right, every occurrence of [sep]
    closes the current segment; the text after the last occurrence (or the
    whole text, or the empty text) is the final segment, so the result is
    never empty: ["".split("\n") == [""]]. *)
Fixpoint split (sep : ascii) (s : string) : list string :=
  match s with
  | EmptyString => [EmptyString]
  | String c rest =>
      if Ascii.eqb c sep then EmptyString :: split sep rest
      else match split sep rest with
           | seg :: segs => String c seg :: segs
           | [] => [String c EmptyString]
           end
  end.

(** [len(l)]. *)
Definition len {A : Type} (l : list A) : nat := length l.

(** The slice [l[:stop]]: a negative [stop] counts from the end, and the
    bound is clamped into [0 .. len(l)], so slicing never raises. *)
Definition slice_to {A : Type} (stop : Z) (l : list A) : list A :=
  let n := Z.of_nat (length l) in
  let hi := if (stop <? 0)%Z then Z.max (stop + n) 0 else Z.min stop n in
  firstn (Z.to_nat hi) l.

(** [s.count(c)] for a one-character [c]. *)
Fixpoint count (c : ascii) (s : string) : nat :=
  match s with
  | EmptyString => 0
  | String d rest => (if Ascii.eqb d c then 1 else 0) + count c rest
  end.

(** [sep.join(parts)]. *)
Fixpoint join (sep : string) (parts : list string) : string :=
  match parts with
  | [] => EmptyString
  | [p] => p
  | p :: ps => (p ++ sep ++ join sep ps)%string
  end.

End Py.

Import Py.

(** A text has no line feed in it. *)
Definition no_newline (s : string) : Prop := count newline s = 0.

(** The text made of the given lines, each one terminated by a line feed:
    what a tool prints when it writes one line per item. *)
Fixpoint unlines (lines : list string) : string :=
  match lines with
  | [] => EmptyString
  | l :: ls => (l ++ NL ++ unlines ls)%string
  end.

(* ===================================================================== *)
(** ** Exceptions and the monad of the embedding *)
(* ===================================================================== *)

(** The exceptions [demangle] can end with.  [OSError] stands for whatever
    [subprocess.Popen] raises when the command cannot be started (the
    specification's ExecutableNotFound; no property below tells the ways of
    failing to start apart); [AssertionError] is what the [assert] statement
    raises (the specification's ContractViolation). *)
Inductive exn : Type :=
| OSError (errno : Z)
| AssertionError.

Inductive result (A : Type) : Type :=
| Returned (a : A)
| Raised (e : exn).

Arguments Returned {A} a.
Arguments Raised {A} e.

(** The value a call returned, if it returned. *)
Definition returned {A : Type} (r : result A) : option A :=
  match r with
  | Returned a => Some a
  | Raised _ => None
  end.

(** The state threaded through a run is the number of processes the program
    has tried to start so far; what the operating system answers may depend
    on it (a tool need not behave the same on every invocation). *)
Definition world : Type := nat.

Definition Run (A : Type) : Type := world -> result A * world.

Definition ret {A : Type} (a : A) : Run A := fun w => (Returned a, w).

Definition raise {A : Type} (e : exn) : Run A := fun w => (Raised e, w).

Definition bind {A B : Type} (m : Run A) (k : A -> Run B) : Run B :=
  fun w =>
    match m w with
    | (Returned a, w') => k a w'
    | (Raised e, w') => (Raised e, w')
    end.

Declare Scope run_scope.
Delimit Scope run_scope with run.

Notation "x <- m ;; k" := (bind m (fun x => k))
  (at level 61, m at next level, right associativity) : run_scope.
Notation "' pat <- m ;; k" := (bind m (fun x => match x with pat => k end))
  (at level 61, pat pattern, m at next level, right associativity) : run_scope.
Notation "m ;; k" := (bind m (fun _ => k))
  (at level 61, right associativity) : run_scope.

(** The [assert] statement, as executed by an interpreter that has not been
    told to strip assertions. *)
Definition assert_ (b : bool) : Run unit :=
  if b then ret tt else raise AssertionError.

(* ===================================================================== *)
(** ** The [subprocess] module and the external tool *)
(* ===================================================================== *)

(** What becomes of one attempt to run a command line: it cannot be started,
    or it runs to completion, having written [out] to its standard output
    (as decoded by [text=True]) and exiting with [status]. *)
Inductive outcome : Type :=
| NotStarted (errno : Z)
| Exited (out : string) (status : Z).

(** The environment: the outcome of the [n]-th attempt, given its argument
    vector.  The child's standard input is a pipe that [communicate()]
    closes without writing to it, so the argument vector is the only thing
    [demangle] passes in. *)
Definition Tool : Type := world -> list string -> outcome.

(** The text captured from standard output, when the process ran. *)
Definition captured (o : outcome) : option string :=
  match o with
  | NotStarted _ => None
  | Exited out _ => Some out
  end.

(** The [Popen] object: a handle on a started process.  The fields hold what
    [communicate()] will collect. *)
Record Popen_object : Type := {
  pipe_stdout : string;
  pipe_returncode : Z
}.

Section Demangle.

Variable os : Tool.

(** [subprocess.Popen(args, stdin=PIPE, stdout=PIPE, text=True)]. *)
Definition Popen (args : list string) : Run Popen_object :=
  fun w =>
    match os w args with
    | NotStarted errno => (Raised (OSError errno), S w)
    | Exited out status =>
        (Returned {| pipe_stdout := out; pipe_returncode := status |}, S w)
    end.

(** [pipe.communicate()]: waits for the process and returns the pair
    [(stdout, stderr)]; standard error is not piped, so its slot is [None].
    The return code is stored on the object and not part of the value. *)
Definition communicate (pipe : Popen_object) : Run (string * option string) :=
  ret (pipe_stdout pipe, None).

(** [demangle(names)], statement by statement. *)
Definition demangle (names : list string) : Run (list string) :=
  (let args := ["c++filt"] in
   let args := args ++ names in
   pipe <- Popen args ;;
   '(stdout, _) <- communicate pipe ;;
   let demangled := split newline stdout in
   assert_ (len demangled =? len names + 1)%nat ;;
   ret (slice_to (-1) demangled))%run.

End Demangle.

(** The argument vector [demangle] builds for [names]. *)
Definition argv (names : list string) : list string := "c++filt" :: names.

(** The part of [demangle] after the text has been captured, as a function
    of the names and the text alone: the alignment check and the slice. *)
Definition aligned (names : list string) (stdout : string)
  : result (list string) :=
  if (length (split newline stdout) =? length names + 1)%nat
  then Returned (removelast (split newline stdout))
  else Raised AssertionError.

(** A tool is deterministic when what it prints (and whether it starts at
    all) depends on its argument vector only, not on the invocation. *)
Definition deterministic (os : Tool) : Prop :=
  forall (i j : world) (args : list string),
    captured (os i args) = captured (os j args).

(* ===================================================================== *)
(** ** Stand-ins for the external tool *)
(* ===================================================================== *)

(** A tool that prints every argument after the program name on a line of
    its own and exits with status 0: what [c++filt] does with names it
    cannot demangle. *)
Definition echo_tool : Tool :=
  fun _ args => Exited (unlines (tl args)) 0.

(** A tool that prints the same text and exits with the same status
    whatever it is given. *)
Definition const_tool (out : string) (status : Z) : Tool :=
  fun _ _ => Exited out status.

(** A tool whose exit status is the invocation number, printing like
    [echo_tool]. *)
Definition flaky_status_tool : Tool :=
  fun w args => Exited (unlines (tl args)) (Z.of_nat w).

(** A tool that demangles through a table and echoes the names the table
    does not know. *)
Definition lookup (table : list (string * string)) (name : string) : string :=
  match find (fun entry => String.eqb (fst entry) name) table with
  | Some entry => snd entry
  | None => name
  end.

Definition table_tool (table : list (string * string)) : Tool :=
  fun _ args => Exited (unlines (map (lookup table) (tl args))) 0.

(** The two names the script demangles when it is run, with the readable
    forms the Itanium convention gives them. *)
Definition sample_names : list string :=
  ["_ZNSt15basic_stringbufIcSt11char_traitsIcESaIcEE17_M_stringbuf_initESt13_Ios_Openmode";
   "_ZNSt15basic_stringbufIcSt11char_traitsIcESaIcEE6setbufEPci"].

Definition sample_readable : list string :=
  ["std::basic_stringbuf<char, std::char_traits<char>, std::allocator<char> >::_M_stringbuf_init(std::_Ios_Openmode)";
   "std::basic_stringbuf<char, std::char_traits<char>, std::allocator<char> >::setbuf(char*, int)"].

Definition sample_tool : Tool :=
  table_tool (combine sample_names sample_readable).

(* ===================================================================== *)
(** ** The script at the end of the module *)
(* ===================================================================== *)

(** What the program has written with [print], oldest first.  Each entry is
    the value handed to [print]; the text that reaches the terminal is its
    [repr] followed by a line feed. *)
Definition console : Type := list (list string).

(** [print(value)]. *)
Definition print_ (value : list string) (out : console) : console :=
  out ++ [value].

(** The statement [print(demangle([..., ...]))] the module ends with: the
    argument is evaluated first, and [print] is reached only when [demangle]
    returns. *)
Definition script (os : Tool) (w : world) (out : console)
  : result unit * world * console :=
  match demangle os sample_names w with
  | (Returned value, w') => (Returned tt, w', print_ value out)
  | (Raised e, w') => (Raised e, w', out)
  end.

(* ===================================================================== *)
(** ** Facts about the built-ins *)
(* ===================================================================== *)

Section Builtins.

Variable sep : ascii.

Lemma split_not_nil (s : string) : split sep s <> [].
Proof.
  destruct s as [|c rest]; simpl; [discriminate|].
  destruct (Ascii.eqb c sep); [discriminate|].
  destruct (split sep rest); discriminate.
Qed.

(** One segment more than there are separators. *)
Lemma split_length (s : string) : length (split sep s) = S (count sep s).
Proof.
  induction s as [|c rest IH]; simpl; [reflexivity|].
  destruct (Ascii.eqb c sep); simpl.
  - now rewrite IH.
  - destruct (split sep rest) as [|seg segs] eqn:E.
    + now destruct (split_not_nil rest).
    + exact IH.
Qed.

(** No segment contains the separator. *)
Lemma split_segments (s : string) :
  Forall (fun seg => count sep seg = 0) (split sep s).
Proof.
  induction s as [|c rest IH]; simpl.
  - repeat constructor.
  - destruct (Ascii.eqb c sep) eqn:Ec.
    + constructor; [reflexivity | exact IH].
    + destruct (split sep rest) as [|seg segs].
      * constructor; [simpl; now rewrite Ec | constructor].
      * inversion IH as [|? ? Hseg Hsegs]; subst.
        constructor; [simpl; now rewrite Ec | exact Hsegs].
Qed.


Lemma count_cons_zero (c : ascii) (s : string) :
  count sep (String c s) = 0 -> Ascii.eqb c sep = false /\ count sep s = 0.
Proof.
  simpl. destruct (Ascii.eqb c sep); [discriminate | auto].
Qed.

(** A text without the separator is its own single segment. *)
Lemma split_no_sep (s : string) : count sep s = 0 -> split sep s = [s].
Proof.
  induction s as [|c rest IH]; intros H; [reflexivity|].
  apply count_cons_zero in H as [Ec Hrest].
  simpl. rewrite Ec, (IH Hrest). reflexivity.
Qed.

(** Splitting past the first separator. *)
Lemma split_app_sep (s t : string) :
  count sep s = 0 ->
  split sep (s ++ String sep t) = s :: split sep t.
Proof.
  induction s as [|c rest IH]; intros H; simpl.
  - now rewrite Ascii.eqb_refl.
  - apply count_cons_zero in H as [Ec Hrest].
    rewrite Ec, (IH Hrest). reflexivity.
Qed.

End Builtins.

Lemma split_unlines (lines : list string) :
  Forall no_newline lines ->
  split newline (unlines lines) = lines ++ [EmptyString].
Proof.
  induction 1 as [|l ls Hl _ IH]; [reflexivity|].
  cbn [unlines NL]. change (NL ++ unlines ls)%string with (String newline (unlines ls)).
  rewrite (split_app_sep newline l _ Hl), IH. reflexivity.
Qed.

Lemma split_join (lines : list string) :
  lines <> [] ->
  Forall no_newline lines ->
  split newline (join NL lines) = lines.
Proof.
  intros Hne H. induction H as [|l ls Hl Hls IH]; [contradiction|].
  destruct ls as [|l' ls'].
  - simpl. now apply split_no_sep.
  - change (join NL (l :: l' :: ls'))
      with (l ++ String newline (join NL (l' :: ls')))%string.
    rewrite (split_app_sep newline l _ Hl), IH; [reflexivity | discriminate].
Qed.

(** [l[:-1]] drops the last element, and is [[]] on the empty list. *)
Lemma slice_to_minus_one {A : Type} (l : list A) :
  slice_to (-1) l = removelast l.
Proof.
  unfold slice_to. rewrite removelast_firstn_len.
  change (-1 <? 0)%Z with true. cbv iota.
  f_equal. lia.
Qed.

(* ===================================================================== *)
(** ** What a call of [demangle] does *)
(* ===================================================================== *)

Example demangle_sample :
  demangle sample_tool sample_names 0 = (Returned sample_readable, 1).
Proof. reflexivity. Qed.

Example demangle_echo :
  demangle echo_tool ["_Z1fv"; "main"] 7 = (Returned ["_Z1fv"; "main"], 8).
Proof. reflexivity. Qed.

(** The check counts segments only: text after the last line feed is
    dropped with the final segment. *)
Example demangle_unterminated_tail :
  demangle (const_tool (join NL ["f()"; "oops"]) 0) ["_Z1fv"] 0
  = (Returned ["f()"], 1).
Proof. reflexivity. Qed.

Example demangle_not_found :
  demangle (fun _ _ => NotStarted 2) ["main"] 0 = (Raised (OSError 2), 1).
Proof. reflexivity. Qed.

Section Calls.

Variable os : Tool.
Variable names : list string.
Variable w : world.

(** Once the tool has run, the call is [aligned] on the captured text. *)
Lemma demangle_captured (out : string) :
  captured (os w (argv names)) = Some out ->
  demangle os names w = (aligned names out, S w).
Proof.
  intros H. unfold demangle, bind, Popen.
  change (["c++filt"] ++ names) with (argv names).
  destruct (os w (argv names)) as [errno|out' status]; [discriminate|].
  injection H as ->. cbn [communicate ret pipe_stdout].
  unfold assert_, aligned, len.
  destruct (length (split newline out) =? length names + 1)%nat; cbn.
  - now rewrite slice_to_minus_one.
  - reflexivity.
Qed.

(** When the tool cannot be started, the call raises [OSError]. *)
Lemma demangle_not_started :
  captured (os w (argv names)) = None ->
  exists errno, demangle os names w = (Raised (OSError errno), S w).
Proof.
  intros H. unfold demangle, bind, Popen.
  change (["c++filt"] ++ names) with (argv names).
  destruct (os w (argv names)) as [errno|out' status]; [|discriminate].
  now exists errno.
Qed.

End Calls.

Lemma aligned_returns_iff (names : list string) (out : string) :
  (exists res, aligned names out = Returned res) <->
  count newline out = length names.
Proof.
  unfold aligned. rewrite split_length.
  destruct (S (count newline out) =? length names + 1)%nat eqn:E.
  - apply Nat.eqb_eq in E. split; [lia | eauto].
  - apply Nat.eqb_neq in E. split; [intros [res H]; discriminate | lia].
Qed.

Lemma aligned_unlines (names lines : list string) :
  Forall no_newline lines ->
  length lines = length names ->
  aligned names (unlines lines) = Returned lines.
Proof.
  intros Hl Hlen. unfold aligned.
  rewrite (split_unlines lines Hl), length_app, Hlen, Nat.eqb_refl.
  now rewrite removelast_last.
Qed.

Lemma aligned_unlines_mismatch (names lines : list string) :
  Forall no_newline lines ->
  length lines <> length names ->
  aligned names (unlines lines) = Raised AssertionError.
Proof.
  intros Hl Hlen. unfold aligned.
  rewrite (split_unlines lines Hl), length_app. cbn [length].
  destruct (length lines + 1 =? length names + 1)%nat eqn:E; [|reflexivity].
  apply Nat.eqb_eq in E. lia.
Qed.

Lemma Forall_removelast {A : Type} (P : A -> Prop) (l : list A) :
  Forall P l -> Forall P (removelast l).
Proof.
  induction 1 as [|a l Ha Hl IH]; [constructor|].
  destruct l; [constructor|]. 
  change (removelast (a :: a0 :: l)) with (a :: removelast (a0 :: l)).
  now constructor.
Qed.

(* ===================================================================== *)
(** ** The call contract *)
(* ===================================================================== *)

(** C1.  When the tool is well behaved, that is, it ran and printed exactly
    one line-feed-terminated line per name, [demangle names] returns a list
    as long as [names] (also when [names] is empty). *)
Theorem demangle_length_well_behaved
    (os : Tool) (names : list string) (w : world) (lines : list string) :
  captured (os w (argv names)) = Some (unlines lines) ->
  Forall no_newline lines ->
  length lines = length names ->
  exists res,
    fst (demangle os names w) = Returned res /\ length res = length names.
Proof.
  intros Hrun Hlines Hlen. exists lines.
  rewrite (demangle_captured os names w _ Hrun). cbn [fst].
  split; [now apply aligned_unlines | exact Hlen].
Qed.

Lemma demangle_length_well_behaved_witness :
  captured (sample_tool 0 (argv sample_names)) = Some (unlines sample_readable)
  /\ Forall no_newline sample_readable
  /\ length sample_readable = length sample_names
  /\ exists res,
       fst (demangle sample_tool sample_names 0) = Returned res
       /\ length res = length sample_names.
Proof.
  assert (Hl : Forall no_newline sample_readable)
    by (repeat constructor).
  repeat split; try reflexivity; try exact Hl.
  apply (demangle_length_well_behaved sample_tool sample_names 0
           sample_readable); [reflexivity | exact Hl | reflexivity].
Defined.

(** C2.  Whatever text was captured, if splitting it on line feeds does not
    give exactly [len(names) + 1] segments, the call raises [AssertionError]
    (the spec's ContractViolation) and so returns no list. *)
Theorem misaligned_output_raises
    (os : Tool) (names : list string) (w : world) (out : string) :
  captured (os w (argv names)) = Some out ->
  length (split newline out) <> length names + 1 ->
  fst (demangle os names w) = Raised AssertionError
  /\ returned (fst (demangle os names w)) = None.
Proof.
  intros Hrun Hseg.
  rewrite (demangle_captured os names w out Hrun). cbn [fst].
  unfold aligned.
  apply Nat.eqb_neq in Hseg. rewrite Hseg. split; reflexivity.
Qed.

Lemma misaligned_output_raises_witness :
  captured (const_tool "a" 0 0 (argv ["x"])) = Some "a"
  /\ length (split newline "a") <> length ["x"] + 1
  /\ fst (demangle (const_tool "a" 0) ["x"] 0) = Raised AssertionError
  /\ returned (fst (demangle (const_tool "a" 0) ["x"] 0)) = None.
Proof.
  split; [reflexivity|]. split; [cbn; lia|].
  apply (misaligned_output_raises (const_tool "a" 0) ["x"] 0 "a");
    [reflexivity | cbn; lia].
Defined.

(** C3, as the specification words it, does not hold: a tool that prints exactly [k]
    terminated lines with [k <> len(names) + 1] need not make the call fail.
    With one name and one printed line, [k = 1 <> 2], and the call returns. *)
Lemma k_lines_claim_refuted :
  ~ (forall (os : Tool) (names : list string) (w : world)
            (lines : list string),
        captured (os w (argv names)) = Some (unlines lines) ->
        Forall no_newline lines ->
        length lines <> length names + 1 ->
        fst (demangle os names w) = Raised AssertionError).
Proof.
  intros H.
  specialize (H echo_tool ["a"] 0 ["a"] eq_refl).
  assert (Hr : fst (demangle echo_tool ["a"] 0) = Returned ["a"])
    by reflexivity.
  rewrite H in Hr; [discriminate | repeat constructor | cbn; lia].
Qed.

(** C3, amended.  When the tool prints exactly [k] line-feed-terminated
    lines, the call raises [AssertionError] if [k <> len(names)], and it
    returns exactly when [k = len(names)]: [k] terminated lines split into
    [k + 1] segments, and the check wants [len(names) + 1] segments. *)
Theorem line_count_decides
    (os : Tool) (names : list string) (w : world) (lines : list string) :
  captured (os w (argv names)) = Some (unlines lines) ->
  Forall no_newline lines ->
  (length lines <> length names ->
   fst (demangle os names w) = Raised AssertionError)
  /\ ((exists res, fst (demangle os names w) = Returned res) <->
      length lines = length names).
Proof.
  intros Hrun Hlines.
  rewrite (demangle_captured os names w _ Hrun). cbn [fst].
  split.
  - now apply aligned_unlines_mismatch.
  - split.
    + intros [res Hres].
      destruct (Nat.eq_dec (length lines) (length names)) as [E|E]; [exact E|].
      rewrite (aligned_unlines_mismatch names lines Hlines E) in Hres.
      discriminate.
    + intros E. exists lines. now apply aligned_unlines.
Qed.

Lemma line_count_decides_witness :
  let os := const_tool (unlines ["a"; "b"]) 0 in
  captured (os 0 (argv ["x"])) = Some (unlines ["a"; "b"])
  /\ Forall no_newline ["a"; "b"]
  /\ (length ["a"; "b"] <> length ["x"] ->
      fst (demangle os ["x"] 0) = Raised AssertionError)
  /\ ((exists res, fst (demangle os ["x"] 0) = Returned res) <->
      length ["a"; "b"] = length ["x"]).
Proof.
  intros os.
  assert (Hl : Forall no_newline ["a"; "b"]) by (repeat constructor).
  split; [reflexivity|]. split; [exact Hl|].
  apply (line_count_decides os ["x"] 0 ["a"; "b"]); [reflexivity | exact Hl].
Defined.

(** C4.  When the captured text splits on line feeds into exactly
    [len(names) + 1] segments, the call returns those segments without the
    final one, in the order of the text. *)
Theorem aligned_output_returned
    (os : Tool) (names : list string) (w : world) (out : string) :
  captured (os w (argv names)) = Some out ->
  length (split newline out) = length names + 1 ->
  exists final,
    fst (demangle os names w) = Returned (removelast (split newline out))
    /\ split newline out = removelast (split newline out) ++ [final].
Proof.
  intros Hrun Hseg.
  exists (last (split newline out) EmptyString).
  rewrite (demangle_captured os names w out Hrun). cbn [fst].
  unfold aligned. rewrite Hseg, Nat.eqb_refl.
  split; [reflexivity|].
  apply app_removelast_last, split_not_nil.
Qed.

Lemma aligned_output_returned_witness :
  let out := unlines ["f()"; "g(int)"] in
  let os := const_tool out 1 in
  captured (os 0 (argv ["_Z1fv"; "_Z1gi"])) = Some out
  /\ length (split newline out) = length ["_Z1fv"; "_Z1gi"] + 1
  /\ exists final,
       fst (demangle os ["_Z1fv"; "_Z1gi"] 0)
         = Returned (removelast (split newline out))
       /\ split newline out = removelast (split newline out) ++ [final].
Proof.
  intros out os.
  split; [reflexivity|]. split; [reflexivity|].
  apply (aligned_output_returned os ["_Z1fv"; "_Z1gi"] 0 out); reflexivity.
Defined.

(** C5, as the specification words it, does not hold: on the empty input the call
    can raise [AssertionError].  It does as soon as the tool prints a line
    feed, here a single empty line. *)
Lemma empty_input_claim_refuted :
  ~ (forall (os : Tool) (w : world) (out : string),
        captured (os w (argv [])) = Some out ->
        fst (demangle os [] w) = Returned []).
Proof.
  intros H.
  specialize (H (const_tool NL 0) 0 NL eq_refl).
  assert (Hr : fst (demangle (const_tool NL 0) [] 0) = Raised AssertionError)
    by reflexivity.
  rewrite H in Hr. discriminate.
Qed.

(** C5, amended.  On the empty input the call returns [[]] whenever the
    captured text has no line feed in it (in particular when the tool prints
    nothing), and raises [AssertionError] whenever it has one. *)
Theorem demangle_empty_input (os : Tool) (w : world) (out : string) :
  captured (os w (argv [])) = Some out ->
  (no_newline out -> fst (demangle os [] w) = Returned [])
  /\ (~ no_newline out -> fst (demangle os [] w) = Raised AssertionError).
Proof.
  intros Hrun.
  rewrite (demangle_captured os [] w out Hrun). cbn [fst].
  unfold no_newline. split; intros H.
  - unfold aligned. now rewrite (split_no_sep newline out H).
  - unfold aligned. rewrite split_length. cbn [length Nat.add].
    destruct (count newline out) as [|n]; [contradiction | reflexivity].
Qed.

Lemma demangle_empty_input_witness :
  captured (echo_tool 0 (argv [])) = Some EmptyString
  /\ (no_newline EmptyString -> fst (demangle echo_tool [] 0) = Returned [])
  /\ (~ no_newline EmptyString ->
      fst (demangle echo_tool [] 0) = Raised AssertionError).
Proof.
  split; [reflexivity|].
  apply (demangle_empty_input echo_tool 0 EmptyString). reflexivity.
Defined.

(** C6.  For a name [x] without a line feed, when the tool echoes it back
    as the line [x] followed by a line feed, [demangle [x]] returns [[x]]. *)
Theorem demangle_echoed_name (os : Tool) (w : world) (x : string) :
  no_newline x ->
  captured (os w (argv [x])) = Some (x ++ NL)%string ->
  fst (demangle os [x] w) = Returned [x].
Proof.
  intros Hx Hrun.
  rewrite (demangle_captured os [x] w _ Hrun). cbn [fst].
  change (x ++ NL)%string with (unlines [x]).
  apply aligned_unlines; [now constructor | reflexivity].
Qed.

Lemma demangle_echoed_name_witness :
  no_newline "main"
  /\ captured (echo_tool 0 (argv ["main"])) = Some ("main" ++ NL)%string
  /\ fst (demangle echo_tool ["main"] 0) = Returned ["main"].
Proof.
  split; [reflexivity|]. split; [reflexivity|].
  apply (demangle_echoed_name echo_tool 0 "main"); reflexivity.
Defined.

(** C7.  With a deterministic tool, two calls of [demangle] on the same
    names give the same output: at whatever points of the run they are made,
    both return the same list, or neither returns. *)
Theorem demangle_repeatable
    (os : Tool) (names : list string) (w1 w2 : world) :
  deterministic os ->
  returned (fst (demangle os names w1)) = returned (fst (demangle os names w2)).
Proof.
  intros Hdet.
  pose proof (Hdet w1 w2 (argv names)) as Hsame.
  destruct (captured (os w1 (argv names))) as [out|] eqn:H1.
  - symmetry in Hsame.
    rewrite (demangle_captured os names w1 out H1).
    rewrite (demangle_captured os names w2 out Hsame).
    reflexivity.
  - symmetry in Hsame.
    destruct (demangle_not_started os names w1 H1) as [e1 ->].
    destruct (demangle_not_started os names w2 Hsame) as [e2 ->].
    reflexivity.
Qed.

Lemma demangle_repeatable_witness :
  deterministic sample_tool
  /\ returned (fst (demangle sample_tool sample_names 0))
     = returned (fst (demangle sample_tool sample_names
                        (snd (demangle sample_tool sample_names 0)))).
Proof.
  assert (Hdet : deterministic sample_tool) by (intros i j args; reflexivity).
  split; [exact Hdet|].
  apply (demangle_repeatable sample_tool sample_names 0 _ Hdet).
Defined.

(** C8.  The exit status is not looked at.  Two runs in which the tool
    prints the same text give the same result whatever the two exit
    statuses are, and a run that ran the tool fails only by the alignment
    check: a non-zero status by itself never makes the call fail. *)
Theorem exit_status_ignored
    (os1 os2 : Tool) (names : list string) (w1 w2 : world)
    (out : string) (status1 status2 : Z) :
  os1 w1 (argv names) = Exited out status1 ->
  os2 w2 (argv names) = Exited out status2 ->
  fst (demangle os1 names w1) = fst (demangle os2 names w2)
  /\ (forall e, fst (demangle os2 names w2) = Raised e ->
        e = AssertionError
        /\ length (split newline out) <> length names + 1).
Proof.
  intros H1 H2.
  assert (C1 : captured (os1 w1 (argv names)) = Some out) by now rewrite H1.
  assert (C2 : captured (os2 w2 (argv names)) = Some out) by now rewrite H2.
  rewrite (demangle_captured os1 names w1 out C1).
  rewrite (demangle_captured os2 names w2 out C2).
  cbn [fst]. split; [reflexivity|].
  intros e. unfold aligned.
  destruct (length (split newline out) =? length names + 1)%nat eqn:E;
    [discriminate|].
  apply Nat.eqb_neq in E. intros [= <-]. now split.
Qed.

Lemma exit_status_ignored_witness :
  let os := flaky_status_tool in
  os 0 (argv ["main"]) = Exited (unlines ["main"]) 0
  /\ os 1 (argv ["main"]) = Exited (unlines ["main"]) 1
  /\ fst (demangle os ["main"] 0) = fst (demangle os ["main"] 1)
  /\ (forall e, fst (demangle os ["main"] 1) = Raised e ->
        e = AssertionError
        /\ length (split newline (unlines ["main"])) <> length ["main"] + 1).
Proof.
  intros os.
  split; [reflexivity|]. split; [reflexivity|].
  apply (exit_status_ignored os os ["main"] 0 1 (unlines ["main"]) 0 1);
    reflexivity.
Defined.

(** C9.  No element of a list returned by [demangle] has a line feed in
    it. *)
Theorem returned_names_have_no_newline
    (os : Tool) (names : list string) (w : world) (res : list string) :
  fst (demangle os names w) = Returned res ->
  Forall no_newline res.
Proof.
  destruct (captured (os w (argv names))) as [out|] eqn:Hrun.
  - rewrite (demangle_captured os names w out Hrun). cbn [fst].
    unfold aligned.
    destruct (length (split newline out) =? length names + 1)%nat;
      [|discriminate].
    intros [= <-]. apply Forall_removelast, split_segments.
  - destruct (demangle_not_started os names w Hrun) as [errno ->].
    discriminate.
Qed.

Lemma returned_names_have_no_newline_witness :
  fst (demangle sample_tool sample_names 0) = Returned sample_readable
  /\ Forall no_newline sample_readable.
Proof.
  split; [reflexivity|].
  apply (returned_names_have_no_newline sample_tool sample_names 0
           sample_readable).
  reflexivity.
Defined.

(** C10.  Once the text is captured, the call returns exactly when the text
    has exactly [len(names)] line feeds in it.  In particular, for a
    non-empty [names], a text of one line per name whose last line is not
    terminated makes the call raise [AssertionError]. *)
Theorem newline_count_decides
    (os : Tool) (names : list string) (w : world) (out : string) :
  captured (os w (argv names)) = Some out ->
  ((exists res, fst (demangle os names w) = Returned res) <->
   count newline out = length names)
  /\ (forall lines,
        names <> [] ->
        length lines = length names ->
        Forall no_newline lines ->
        out = join NL lines ->
        fst (demangle os names w) = Raised AssertionError).
Proof.
  intros Hrun.
  rewrite (demangle_captured os names w out Hrun). cbn [fst].
  split; [apply aligned_returns_iff|].
  intros lines Hne Hlen Hlines ->.
  assert (Hnil : lines <> []).
  { intros ->. destruct names; [now apply Hne | discriminate]. }
  unfold aligned. rewrite (split_join lines Hnil Hlines), Hlen.
  destruct (length names =? length names + 1)%nat eqn:E; [|reflexivity].
  apply Nat.eqb_eq in E. lia.
Qed.

Lemma newline_count_decides_witness :
  let out := join NL ["f()"; "g(int)"] in
  let os := const_tool out 0 in
  captured (os 0 (argv ["_Z1fv"; "_Z1gi"])) = Some out
  /\ ((exists res, fst (demangle os ["_Z1fv"; "_Z1gi"] 0) = Returned res) <->
      count newline out = length ["_Z1fv"; "_Z1gi"])
  /\ ["_Z1fv"; "_Z1gi"] <> []
  /\ length ["f()"; "g(int)"] = length ["_Z1fv"; "_Z1gi"]
  /\ Forall no_newline ["f()"; "g(int)"]
  /\ fst (demangle os ["_Z1fv"; "_Z1gi"] 0) = Raised AssertionError.
Proof.
  intros out os.
  assert (Hrun : captured (os 0 (argv ["_Z1fv"; "_Z1gi"])) = Some out)
    by reflexivity.
  assert (Hl : Forall no_newline ["f()"; "g(int)"]) by (repeat constructor).
  destruct (newline_count_decides os ["_Z1fv"; "_Z1gi"] 0 out Hrun)
    as [Hiff Hlast].
  split; [exact Hrun|]. split; [exact Hiff|].
  split; [discriminate|]. split; [reflexivity|]. split; [exact Hl|].
  apply (Hlast ["f()"; "g(int)"]);
    [discriminate | reflexivity | exact Hl | reflexivity].
Defined.

(* ===================================================================== *)
(** ** Further facts about the built-ins and the alignment check *)
(* ===================================================================== *)

Lemma join_cons_char (sep : string) (c : ascii) (seg : string)
    (segs : list string) :
  join sep (String c seg :: segs) = String c (join sep (seg :: segs)).
Proof. destruct segs; reflexivity. Qed.

(** Joining the segments of a split with the separator gives the text back. *)
Lemma join_split (s : string) : join NL (split newline s) = s.
Proof.
  induction s as [|c rest IH]; [reflexivity|].
  cbn [split]. destruct (Ascii.eqb c newline) eqn:Ec.
  - apply Ascii.eqb_eq in Ec. subst c.
    destruct (split newline rest) as [|seg segs] eqn:E.
    + now destruct (split_not_nil newline rest).
    + change (join NL (EmptyString :: seg :: segs))
        with (String newline (join NL (seg :: segs))).
      now rewrite IH.
  - destruct (split newline rest) as [|seg segs] eqn:E.
    + now destruct (split_not_nil newline rest).
    + now rewrite join_cons_char, IH.
Qed.

(** Text after the last separator is one more segment. *)
Lemma split_app_tail (body tail : string) :
  no_newline tail ->
  split newline (body ++ NL ++ tail) = split newline body ++ [tail].
Proof.
  intros Ht. induction body as [|c rest IH].
  - change (split newline (String newline tail)
            = [EmptyString] ++ [tail]).
    cbn [split]. rewrite Ascii.eqb_refl.
    now rewrite (split_no_sep newline tail Ht).
  - change (String c rest ++ NL ++ tail)%string
      with (String c (rest ++ NL ++ tail)).
    cbn [split]. rewrite IH.
    destruct (Ascii.eqb c newline); [reflexivity|].
    destruct (split newline rest) as [|seg segs] eqn:E;
      [now destruct (split_not_nil newline rest) | reflexivity].
Qed.

Lemma length_removelast_pred {A : Type} (l : list A) :
  length (removelast l) = pred (length l).
Proof.
  rewrite removelast_firstn_len, length_firstn. lia.
Qed.



Lemma aligned_length (names : list string) (out : string)
    (res : list string) :
  aligned names out = Returned res -> length res = length names.
Proof.
  unfold aligned.
  destruct (length (split newline out) =? length names + 1)%nat eqn:E;
    [|discriminate].
  apply Nat.eqb_eq in E. intros [= <-].
  rewrite length_removelast_pred. lia.
Qed.

Lemma aligned_no_newline (names : list string) (out : string)
    (res : list string) :
  aligned names out = Returned res -> Forall no_newline res.
Proof.
  unfold aligned.
  destruct (length (split newline out) =? length names + 1)%nat;
    [|discriminate].
  intros [= <-]. apply Forall_removelast, split_segments.
Qed.


(** The two ways a call can go. *)
Lemma demangle_cases (os : Tool) (names : list string) (w : world) :
  (exists out,
      captured (os w (argv names)) = Some out
      /\ demangle os names w = (aligned names out, S w))
  \/ (exists errno,
        os w (argv names) = NotStarted errno
        /\ demangle os names w = (Raised (OSError errno), S w)).
Proof.
  destruct (os w (argv names)) as [errno|out status] eqn:E.
  - right. exists errno. split; [reflexivity|].
    unfold demangle, bind, Popen.
    change (["c++filt"] ++ names) with (argv names). now rewrite E.
  - left. exists out. split; [reflexivity|].
    apply demangle_captured. now rewrite E.
Qed.

(* ===================================================================== *)
(** ** More about [demangle] and the script *)
(* ===================================================================== *)

(** X1.  Whatever the tool printed, a list returned by [demangle names] has
    exactly [len(names)] elements: the assert lets nothing else through. *)
Theorem returned_list_has_input_length
    (os : Tool) (names : list string) (w : world) (res : list string) :
  fst (demangle os names w) = Returned res ->
  length res = length names.
Proof.
  destruct (demangle_cases os names w) as [(out & _ & ->)|(errno & _ & ->)];
    cbn [fst]; [apply aligned_length | discriminate].
Qed.

Lemma returned_list_has_input_length_witness :
  let os := const_tool (join NL ["f()"; "noise"]) 3 in
  fst (demangle os ["_Z1fv"] 0) = Returned ["f()"]
  /\ length ["f()"] = length ["_Z1fv"].
Proof.
  intros os. split; [reflexivity|].
  apply (returned_list_has_input_length os ["_Z1fv"] 0 ["f()"]). reflexivity.
Defined.

(** X2.  Every call tries to start exactly one process, whether it then
    returns, fails to start the tool or fails the assert: nothing is
    retried. *)
Theorem one_launch_per_call (os : Tool) (names : list string) (w : world) :
  snd (demangle os names w) = S w.
Proof.
  destruct (demangle_cases os names w) as [Hran|Hfailed].
  - destruct Hran as (out & _ & Hcall). rewrite Hcall. reflexivity.
  - destruct Hfailed as (errno & _ & Hcall). rewrite Hcall. reflexivity.
Qed.

(** X3.  When the command cannot be started, the call raises the launch
    error itself, with its error number; the assert is not reached. *)
Theorem launch_error_propagates
    (os : Tool) (names : list string) (w : world) (errno : Z) :
  os w (argv names) = NotStarted errno ->
  fst (demangle os names w) = Raised (OSError errno).
Proof.
  intros H.
  destruct (demangle_cases os names w)
    as [(out & Hc & _)|(errno' & Hn & ->)].
  - rewrite H in Hc. discriminate.
  - rewrite H in Hn. now injection Hn as ->.
Qed.

Lemma launch_error_propagates_witness :
  let os : Tool := fun _ _ => NotStarted 2 in
  os 0 (argv ["main"]) = NotStarted 2
  /\ fst (demangle os ["main"] 0) = Raised (OSError 2).
Proof.
  intros os. split; [reflexivity|].
  apply (launch_error_propagates os ["main"] 0 2). reflexivity.
Defined.

(** X4.  The only thing a call asks of its environment is to run the
    command line [c++filt name_1 ... name_n], the names in their order: two
    environments that answer that one request alike give the same result. *)
Theorem only_the_command_line_matters
    (os1 os2 : Tool) (names : list string) (w1 w2 : world) :
  os1 w1 ("c++filt" :: names) = os2 w2 ("c++filt" :: names) ->
  fst (demangle os1 names w1) = fst (demangle os2 names w2).
Proof.
  intros H. unfold demangle, bind, Popen.
  change (["c++filt"] ++ names) with ("c++filt" :: names).
  rewrite H.
  destruct (os2 w2 ("c++filt" :: names)) as [errno|out status];
    [reflexivity|].
  cbn [communicate ret pipe_stdout]. unfold assert_.
  now destruct (len (split newline out) =? len names + 1)%nat.
Qed.

Lemma only_the_command_line_matters_witness :
  echo_tool 0 ["c++filt"; "main"] = flaky_status_tool 0 ["c++filt"; "main"]
  /\ fst (demangle echo_tool ["main"] 0)
     = fst (demangle flaky_status_tool ["main"] 0).
Proof.
  split; [reflexivity|].
  apply (only_the_command_line_matters echo_tool flaky_status_tool
           ["main"] 0 0).
  reflexivity.
Defined.

(** X5.  When the tool printed one line-feed-terminated line per name, the
    call returns exactly those lines, in the order they were printed, so
    that the line at each position is the one printed for the name at that
    position. *)
Theorem well_behaved_lines_returned
    (os : Tool) (names : list string) (w : world) (lines : list string) :
  captured (os w (argv names)) = Some (unlines lines) ->
  Forall no_newline lines ->
  length lines = length names ->
  fst (demangle os names w) = Returned lines.
Proof.
  intros Hrun Hlines Hlen.
  rewrite (demangle_captured os names w _ Hrun). cbn [fst].
  now apply aligned_unlines.
Qed.

Lemma well_behaved_lines_returned_witness :
  captured (sample_tool 4 (argv sample_names)) = Some (unlines sample_readable)
  /\ Forall no_newline sample_readable
  /\ length sample_readable = length sample_names
  /\ fst (demangle sample_tool sample_names 4) = Returned sample_readable.
Proof.
  assert (Hl : Forall no_newline sample_readable) by (repeat constructor).
  split; [reflexivity|]. split; [exact Hl|]. split; [reflexivity|].
  apply (well_behaved_lines_returned sample_tool sample_names 4
           sample_readable); [reflexivity | exact Hl | reflexivity].
Defined.

(** X6.  A returned list accounts for the whole captured text up to its last
    line feed: the text is the returned elements joined by line feeds,
    followed by a line feed and by one final piece that has no line feed in
    it.  Nothing before the last line feed is lost or reordered. *)
Theorem returned_list_rebuilds_output
    (os : Tool) (names : list string) (w : world) (out : string)
    (res : list string) :
  captured (os w (argv names)) = Some out ->
  fst (demangle os names w) = Returned res ->
  exists final,
    no_newline final
    /\ split newline out = res ++ [final]
    /\ out = join NL (res ++ [final]).
Proof.
  intros Hrun. rewrite (demangle_captured os names w out Hrun). cbn [fst].
  unfold aligned.
  destruct (length (split newline out) =? length names + 1)%nat;
    [|discriminate].
  intros [= <-].
  exists (last (split newline out) EmptyString).
  pose proof (app_removelast_last EmptyString (split_not_nil newline out))
    as Hsplit.
  split; [|split].
  - pose proof (split_segments newline out) as Hall.
    rewrite Hsplit in Hall. apply Forall_app in Hall as [_ Hlast].
    now inversion Hlast.
  - exact Hsplit.
  - rewrite <- Hsplit. symmetry. apply join_split.
Qed.

Lemma returned_list_rebuilds_output_witness :
  let out := unlines ["f()"; EmptyString; "g(int)"] in
  let os := const_tool out 0 in
  captured (os 0 (argv ["a"; "b"; "c"])) = Some out
  /\ fst (demangle os ["a"; "b"; "c"] 0) = Returned ["f()"; EmptyString; "g(int)"]
  /\ exists final,
       no_newline final
       /\ split newline out = ["f()"; EmptyString; "g(int)"] ++ [final]
       /\ out = join NL (["f()"; EmptyString; "g(int)"] ++ [final]).
Proof.
  intros out os. split; [reflexivity|]. split; [reflexivity|].
  apply (returned_list_rebuilds_output os ["a"; "b"; "c"] 0 out
           ["f()"; EmptyString; "g(int)"]); reflexivity.
Defined.

(** X7.  The assert does not look at what follows the last line feed: text
    printed after it, as long as it has no line feed of its own, changes
    neither whether the call returns nor what it returns. *)
Theorem unterminated_tail_ignored
    (os1 os2 : Tool) (names : list string) (w1 w2 : world)
    (body tail : string) :
  captured (os1 w1 (argv names)) = Some (body ++ NL)%string ->
  captured (os2 w2 (argv names)) = Some (body ++ NL ++ tail)%string ->
  no_newline tail ->
  fst (demangle os1 names w1) = fst (demangle os2 names w2).
Proof.
  intros H1 H2 Htail.
  rewrite (demangle_captured os1 names w1 _ H1).
  rewrite (demangle_captured os2 names w2 _ H2).
  cbn [fst]. unfold aligned.
  rewrite (split_app_tail body tail Htail).
  change (body ++ NL)%string with (body ++ NL ++ EmptyString)%string.
  rewrite (split_app_tail body EmptyString eq_refl).
  rewrite !length_app, !removelast_last. reflexivity.
Qed.

Lemma unterminated_tail_ignored_witness :
  let os1 := const_tool ("f()" ++ NL) 0 in
  let os2 := const_tool ("f()" ++ NL ++ "Segmentation fault") 0 in
  captured (os1 0 (argv ["_Z1fv"])) = Some ("f()" ++ NL)%string
  /\ captured (os2 0 (argv ["_Z1fv"]))
     = Some ("f()" ++ NL ++ "Segmentation fault")%string
  /\ no_newline "Segmentation fault"
  /\ fst (demangle os1 ["_Z1fv"] 0) = fst (demangle os2 ["_Z1fv"] 0).
Proof.
  intros os1 os2.
  split; [reflexivity|]. split; [reflexivity|]. split; [reflexivity|].
  apply (unterminated_tail_ignored os1 os2 ["_Z1fv"] 0 0 "f()"
           "Segmentation fault"); reflexivity.
Defined.



(** X9.  Whatever the tool does, the script either ends with the exception
    [demangle] raised, having printed nothing, or prints exactly one value,
    a list of two elements neither of which has a line feed in it.  Either
    way it has tried to start exactly one process. *)
Theorem script_prints_a_pair_or_nothing
    (os : Tool) (w : world) (out : console) :
  match script os w out with
  | (Returned _, w', out') =>
      w' = S w
      /\ exists first second,
           out' = out ++ [[first; second]]
           /\ no_newline first /\ no_newline second
  | (Raised e, w', out') =>
      w' = S w /\ out' = out
      /\ fst (demangle os sample_names w) = Raised e
  end.
Proof.
  unfold script.
  destruct (demangle_cases os sample_names w)
    as [(text & _ & ->)|(errno & _ & ->)].
  - destruct (aligned sample_names text) as [res|e] eqn:E.
    + split; [reflexivity|].
      pose proof (aligned_length _ _ _ E) as Hlen.
      pose proof (aligned_no_newline _ _ _ E) as Hall.
      destruct res as [|first [|second [|third rest]]]; try discriminate.
      exists first, second. unfold print_.
      inversion Hall as [|? ? Hf Hrest]. inversion Hrest as [|? ? Hs _].
      now repeat split.
    + now repeat split.
  - now repeat split.
Qed.

Example script_sample :
  script sample_tool 0 [] = (Returned tt, 1, [sample_readable]).
Proof. reflexivity. Qed.

Example script_tool_missing :
  script (fun _ _ => NotStarted 2) 0 [] = (Raised (OSError 2), 1, []).
Proof. reflexivity. Qed.
